(** * Theme controller of the portfolio website (theme.js)

    A shallow embedding of [portfolio-website/theme.js]: the time-of-day
    phase, the persisted mode, the effective theme, the applicator that
    writes the three root attributes and the label, the boundary timer, the
    toggle handler, the navigation highlighting and the pre-paint copy.

    Host objects the script talks to are modelled as data:
    - [Date]: a local wall-clock instant in milliseconds (days of 24 hours,
      no daylight-saving shift);
    - [localStorage]: a string-keyed map, or a backend whose access throws;
    - [matchMedia(..).matches]: a boolean, or a call that throws;
    - the document: the attribute map of the root element and the text of
      the optional label element;
    - [setTimeout]/[clearTimeout]: a map of pending one-shot timers. *)

From Stdlib Require Import ZArith Lia List.
From stdpp Require Import base strings gmap.
Import ListNotations.

Local Open Scope Z_scope.

(** ** JavaScript primitives *)

(** Outcome of evaluating an expression that may throw. *)
Inductive completion (A : Type) : Type :=
  | Normal (a : A)
  | Throw.
Arguments Normal {A} a.
Arguments Throw {A}.

#[global] Instance completion_ret : MRet completion := fun A a => Normal a.

#[global] Instance completion_bind : MBind completion := fun A B k c =>
  match c with
  | Normal a => k a
  | Throw => Throw
  end.

(** [try { body } catch (e) { handler }] for a body that returns. *)
Definition try_catch {A} (body : completion A) (handler : A) : A :=
  match body with
  | Normal a => a
  | Throw => handler
  end.

(** [Array.prototype.includes] on an array of strings; the argument is a
    string or [null]. *)
Definition includes (l : list string) (x : option string) : bool :=
  match x with
  | Some s => existsb (String.eqb s) l
  | None => false
  end.

(** [Array.prototype.indexOf]: first position, or -1. *)
Fixpoint indexOf (l : list string) (x : string) : Z :=
  match l with
  | [] => -1
  | y :: l' =>
      if String.eqb y x then 0
      else let r := indexOf l' x in if r <? 0 then -1 else r + 1
  end.

(** [a[i]]: [None] stands for [undefined]. *)
Definition array_get (l : list string) (i : Z) : option string :=
  if i <? 0 then None else l !! Z.to_nat i.

(** [String(v)] as [setItem] applies it to its value argument. *)
Definition to_js_string (v : option string) : string :=
  match v with
  | Some s => s
  | None => "undefined"
  end.

(** [String.prototype.endsWith]. *)
Definition endsWith (s t : string) : bool :=
  let n := String.length s in
  let m := String.length t in
  if (m <=? n)%nat then String.eqb (String.substring (n - m) m s) t else false.

(** [String.prototype.includes]: [t] occurs somewhere in [s]. *)
Fixpoint str_includes (s t : string) : bool :=
  if String.prefix t s then true
  else match s with
       | EmptyString => false
       | String _ s' => str_includes s' t
       end.

(** ** Date *)

Module Date.

(** A local wall-clock instant, in milliseconds. *)
Definition t := Z.

Definition MS_PER_HOUR : Z := 3600000.
Definition MS_PER_DAY : Z := 86400000.

Definition getHours (d : t) : Z := (d / MS_PER_HOUR) mod 24.

(** Midnight of the day [d] lies in. *)
Definition startOfDay (d : t) : t := (d / MS_PER_DAY) * MS_PER_DAY.

(** [d.setHours(h, 0, 0, 0)] for [0 <= h < 24]. *)
Definition setHours (d : t) (h : Z) : t := startOfDay d + h * MS_PER_HOUR.

(** [d.setDate(d.getDate() + 1)]. *)
Definition addDay (d : t) : t := d + MS_PER_DAY.

Definition getTime (d : t) : Z := d.

(** The instant [h]:[m]:[s].[ms] of day [day]. *)
Definition at_time (day h m s ms : Z) : t :=
  day * MS_PER_DAY + h * MS_PER_HOUR + m * 60000 + s * 1000 + ms.

End Date.

(** ** localStorage *)

Inductive Storage : Type :=
  | Denied
      (* touching [localStorage] throws *)
  | Granted (items : gmap string string) (full : bool)
      (* [full]: [setItem] throws (quota exceeded) *).

Definition getItem (ls : Storage) (key : string) : completion (option string) :=
  match ls with
  | Denied => Throw
  | Granted items _ => Normal (items !! key)
  end.

Definition setItem (ls : Storage) (key : string) (value : option string)
  : completion Storage :=
  match ls with
  | Denied => Throw
  | Granted items full =>
      if full then Throw
      else Normal (Granted (<[key := to_js_string value]> items) full)
  end.

(** ** Theme configuration *)

Definition THEME_KEY : string := "portfolio-theme-mode".
Definition THEME_MODES : list string := ["auto"; "light"; "dark"].

(** ** Phase, mode and effective theme *)

Definition getCurrentPhase (now : Date.t) : string :=
  let hour := Date.getHours now in
  if (5 <=? hour) && (hour <? 10) then "morning"
  else if (10 <=? hour) && (hour <? 16) then "afternoon"
  else if (16 <=? hour) && (hour <? 19) then "evening"
  else "night".

Definition getStoredThemeMode (ls : Storage) : string :=
  try_catch
    (stored ← getItem ls THEME_KEY;
     mret (match stored with
             | Some s => if includes THEME_MODES stored then s else "auto"
             | None => "auto"
             end))
    "auto".

Definition storeThemeMode (mode : option string) (ls : Storage) : Storage :=
  try_catch (setItem ls THEME_KEY mode) ls.

(** [media] is the outcome of
    [window.matchMedia('(prefers-color-scheme: dark)').matches]. *)
Definition getSystemTheme (media : completion bool) : string :=
  try_catch
    (m ← media; mret (if m : bool then "dark" else "light"))
    "light".

Definition getEffectiveTheme (mode : string) (media : completion bool) : string :=
  if String.eqb mode "auto" then getSystemTheme media else mode.

(** ** The page *)

(** A navigation link: the path of its [href] and its [aria-current]
    attribute. *)
Record NavLink : Type := mkNavLink {
  pathname : string;
  aria_current : option string
}.

Record Page : Type := mkPage {
  (* host environment *)
  storage : Storage;                (* localStorage *)
  media : completion bool;          (* matchMedia(dark).matches *)
  clock : Date.t;                   (* what [new Date()] reads *)
  location_pathname : string;       (* window.location.pathname *)
  timers : gmap positive Z;         (* pending one-shot timers: id -> delay *)
  next_timer : positive;            (* the id [setTimeout] hands out next *)
  (* document *)
  root : gmap string string;        (* attributes of documentElement *)
  label : option string;            (* text of #theme-label, if present *)
  toggle : bool;                    (* #theme-toggle is present *)
  navLinks : list NavLink;          (* the .nav-link elements *)
  clickListener : bool;             (* click handler attached to the toggle *)
  (* variables of the script *)
  currentTimeout : option positive;
  mediaQuery : bool                 (* non-null, change listener attached *)
}.

Definition set_storage (v : Storage) (p : Page) : Page :=
  mkPage v (media p) (clock p) (location_pathname p) (timers p) (next_timer p)
    (root p) (label p) (toggle p) (navLinks p) (clickListener p)
    (currentTimeout p) (mediaQuery p).

Definition set_timers (v : gmap positive Z) (p : Page) : Page :=
  mkPage (storage p) (media p) (clock p) (location_pathname p) v (next_timer p)
    (root p) (label p) (toggle p) (navLinks p) (clickListener p)
    (currentTimeout p) (mediaQuery p).

Definition set_next_timer (v : positive) (p : Page) : Page :=
  mkPage (storage p) (media p) (clock p) (location_pathname p) (timers p) v
    (root p) (label p) (toggle p) (navLinks p) (clickListener p)
    (currentTimeout p) (mediaQuery p).

Definition set_root (v : gmap string string) (p : Page) : Page :=
  mkPage (storage p) (media p) (clock p) (location_pathname p) (timers p)
    (next_timer p) v (label p) (toggle p) (navLinks p) (clickListener p)
    (currentTimeout p) (mediaQuery p).

Definition set_label (v : option string) (p : Page) : Page :=
  mkPage (storage p) (media p) (clock p) (location_pathname p) (timers p)
    (next_timer p) (root p) v (toggle p) (navLinks p) (clickListener p)
    (currentTimeout p) (mediaQuery p).

Definition set_navLinks (v : list NavLink) (p : Page) : Page :=
  mkPage (storage p) (media p) (clock p) (location_pathname p) (timers p)
    (next_timer p) (root p) (label p) (toggle p) v (clickListener p)
    (currentTimeout p) (mediaQuery p).

Definition set_clickListener (v : bool) (p : Page) : Page :=
  mkPage (storage p) (media p) (clock p) (location_pathname p) (timers p)
    (next_timer p) (root p) (label p) (toggle p) (navLinks p) v
    (currentTimeout p) (mediaQuery p).

Definition set_currentTimeout (v : option positive) (p : Page) : Page :=
  mkPage (storage p) (media p) (clock p) (location_pathname p) (timers p)
    (next_timer p) (root p) (label p) (toggle p) (navLinks p) (clickListener p)
    v (mediaQuery p).

Definition set_mediaQuery (v : bool) (p : Page) : Page :=
  mkPage (storage p) (media p) (clock p) (location_pathname p) (timers p)
    (next_timer p) (root p) (label p) (toggle p) (navLinks p) (clickListener p)
    (currentTimeout p) v.

(** What the host may change between two handlers: stored items, system
    preference, time. *)
Definition set_host (ls : Storage) (m : completion bool) (now : Date.t)
    (p : Page) : Page :=
  mkPage ls m now (location_pathname p) (timers p) (next_timer p)
    (root p) (label p) (toggle p) (navLinks p) (clickListener p)
    (currentTimeout p) (mediaQuery p).

(** [html.setAttribute(name, value)] on the root element. *)
Definition setAttribute (name value : string) (p : Page) : Page :=
  set_root (<[name := value]> (root p)) p.

(** [setTimeout(callback, delay)]: the only callback the script ever passes
    is the one of [schedulePhaseUpdate], so a pending timer is its delay. *)
Definition setTimeout (delay : Z) (p : Page) : positive * Page :=
  let id := next_timer p in
  (id, set_next_timer (Pos.succ id) (set_timers (<[id := delay]> (timers p)) p)).

Definition clearTimeout (id : positive) (p : Page) : Page :=
  set_timers (delete id (timers p)) p.

(** The host drops a one-shot timer from the pending ones when it expires,
    before running its callback. *)
Definition expire (id : positive) (p : Page) : Page :=
  set_timers (delete id (timers p)) p.

(** ** Applicator *)

Definition applyTheme (mode phase : string) (p : Page) : Page :=
  let effectiveTheme := getEffectiveTheme mode (media p) in
  setAttribute "data-phase" phase
    (setAttribute "data-theme" effectiveTheme
       (setAttribute "data-mode" mode p)).

Definition updateThemeLabel (mode phase : string) (p : Page) : Page :=
  match label p with
  | None => p
  | Some _ =>
      let labelText :=
        if String.eqb mode "auto" then "Auto • " +:+ phase
        else if String.eqb mode "light" then "Light"
        else if String.eqb mode "dark" then "Dark"
        else "Auto" in
      set_label (Some labelText) p
  end.

Definition updateTheme (p : Page) : Page :=
  let mode := getStoredThemeMode (storage p) in
  let phase := getCurrentPhase (clock p) in
  updateThemeLabel mode phase (applyTheme mode phase p).

(** ** Boundary scheduler *)

(** The local [diff] of [getTimeUntilNextPhase]: the delay before the floor
    is applied.  [now] and [target0] are the two [new Date()] readings of
    the function. *)
Definition nextPhaseDiff (now target0 : Date.t) : Z :=
  let currentHour := Date.getHours now in
  let boundaries := [5; 10; 16; 19] in
  let nextBoundary :=
    match List.find (fun hour => currentHour <? hour) boundaries with
    | Some b => if b =? 0 then hd 0 boundaries + 24 else b
    | None => hd 0 boundaries + 24
    end in
  let targetTime := Date.setHours target0 (Z.rem nextBoundary 24) in
  let targetTime :=
    if 24 <=? nextBoundary then Date.addDay targetTime else targetTime in
  Date.getTime targetTime - Date.getTime now.

Definition getTimeUntilNextPhase (now target0 : Date.t) : Z :=
  let diff := nextPhaseDiff now target0 in
  Z.max diff 1000.

Definition schedulePhaseUpdate (p : Page) : Page :=
  let p :=
    match currentTimeout p with
    | Some id => clearTimeout id p
    | None => p
    end in
  let timeUntilNext := getTimeUntilNextPhase (clock p) (clock p) in
  let '(id, p) := setTimeout timeUntilNext p in
  set_currentTimeout (Some id) p.

(** The callback handed to [setTimeout]. *)
Definition phaseTimerCallback (p : Page) : Page :=
  schedulePhaseUpdate (updateTheme p).

(** ** Handlers *)

(** The local [nextMode] of [handleThemeToggle], from its [currentMode]. *)
Definition nextMode (currentMode : string) : option string :=
  let currentIndex := indexOf THEME_MODES currentMode in
  let nextIndex := Z.rem (currentIndex + 1) (Z.of_nat (length THEME_MODES)) in
  array_get THEME_MODES nextIndex.

Definition handleThemeToggle (p : Page) : Page :=
  let currentMode := getStoredThemeMode (storage p) in
  let nextMode := nextMode currentMode in
  updateTheme (set_storage (storeThemeMode nextMode (storage p)) p).

Definition handleSystemThemeChange (p : Page) : Page :=
  let currentMode := getStoredThemeMode (storage p) in
  if String.eqb currentMode "auto" then updateTheme p else p.

(** ** Navigation *)

(** The test of [setActiveNavigation] for one link. *)
Definition isCurrentPage (currentPath linkPath : string) : bool :=
  String.eqb currentPath linkPath
  || (String.eqb currentPath "/" && endsWith linkPath "/index.html")
  || (endsWith currentPath "/index.html" && String.eqb linkPath "/")
  || (str_includes currentPath linkPath && negb (String.eqb linkPath "/")).

Definition setActiveNavigation (p : Page) : Page :=
  let currentPath := location_pathname p in
  set_navLinks
    (map (fun link =>
            let linkPath := pathname link in
            if isCurrentPage currentPath linkPath
            then mkNavLink linkPath (Some "page")
            else mkNavLink linkPath None)
         (navLinks p))
    p.

(** ** Initialisation and teardown *)

Definition initializeTheme (p : Page) : Page :=
  let p := updateTheme p in
  let p := if toggle p then set_clickListener true p else p in
  let p :=
    match media p with
    | Normal _ => set_mediaQuery true p
    | Throw => p
    end in
  let p := schedulePhaseUpdate p in
  setActiveNavigation p.

(** The [beforeunload] listener. *)
Definition beforeunload (p : Page) : Page :=
  let p :=
    match currentTimeout p with
    | Some id => clearTimeout id p
    | None => p
    end in
  if mediaQuery p then set_mediaQuery false p else p.

(** ** Pre-paint copy *)

Module PrePaint.

Definition getPhase (now : Date.t) : string :=
  let hour := Date.getHours now in
  if (5 <=? hour) && (hour <? 10) then "morning"
  else if (10 <=? hour) && (hour <? 16) then "afternoon"
  else if (16 <=? hour) && (hour <? 19) then "evening"
  else "night".

Definition getMode (ls : Storage) : string :=
  try_catch
    (stored ← getItem ls "portfolio-theme-mode";
     mret (match stored with
           | Some s =>
               if includes ["auto"; "light"; "dark"] stored then s else "auto"
           | None => "auto"
           end))
    "auto".

Definition getTheme (mode : string) (media : completion bool) : string :=
  if String.eqb mode "auto" then
    try_catch
      (m ← media; mret (if m : bool then "dark" else "light"))
      "light"
  else mode.

End PrePaint.

Definition prePaintTheme (p : Page) : Page :=
  let mode := PrePaint.getMode (storage p) in
  let phase := PrePaint.getPhase (clock p) in
  let theme := PrePaint.getTheme mode (media p) in
  setAttribute "data-phase" phase
    (setAttribute "data-theme" theme
       (setAttribute "data-mode" mode p)).

(** ** Events of a running page *)

Inductive Event : Type :=
  | Click                          (* the toggle is activated *)
  | SystemThemeChange              (* the media query fires [change] *)
  | TimerFire (id : positive)      (* a pending timer expires *)
  | BeforeUnload
  | HostChange (ls : Storage) (m : completion bool) (now : Date.t).

(** The page after an event; [None] when the event cannot occur. *)
Definition handle (e : Event) (p : Page) : option Page :=
  match e with
  | Click =>
      if clickListener p then Some (handleThemeToggle p) else None
  | SystemThemeChange =>
      if mediaQuery p then Some (handleSystemThemeChange p) else None
  | TimerFire id =>
      match timers p !! id with
      | Some _ => Some (phaseTimerCallback (expire id p))
      | None => None
      end
  | BeforeUnload => Some (beforeunload p)
  | HostChange ls m now => Some (set_host ls m now p)
  end.

(** A page as the browser hands it to the script: nothing scheduled, no
    listener attached, script variables at their initial [null]. *)
Definition fresh (p : Page) : Prop :=
  timers p = ∅ ∧ currentTimeout p = None ∧
  mediaQuery p = false ∧ clickListener p = false.

Inductive reachable : Page → Prop :=
  | reachable_init p : fresh p → reachable (initializeTheme p)
  | reachable_step e p p' : reachable p → handle e p = Some p' → reachable p'.

(** * Notions the properties are stated with *)


(** The first boundary hour after [hour], counted from the midnight before
    (29 is 05:00 of the following day). *)
Definition boundaryAfter (hour : Z) : Z :=
  if hour <? 5 then 5
  else if hour <? 10 then 10
  else if hour <? 16 then 16
  else if hour <? 19 then 19
  else 29.

(** The cycle auto, light, dark, auto, as a successor function. *)
Definition cycleSuccessor (mode : string) : string :=
  if String.eqb mode "auto" then "light"
  else if String.eqb mode "light" then "dark"
  else "auto".

(** A page just loaded at 08:30 with an empty store, a dark system
    preference, both theme elements present and no navigation links. *)
Definition fresh_dark_morning : Page :=
  mkPage (Granted ∅ false) (Normal true) (Date.at_time 0 8 30 0 0) "/"
    ∅ 1%positive ∅ (Some "") true [] false None false.

(** The same page with "light" stored and a store that refuses writes. *)
Definition light_store_full : Page :=
  mkPage (Granted {[THEME_KEY := "light"]} true) (Normal true)
    (Date.at_time 0 8 30 0 0) "/" ∅ 1%positive ∅ (Some "") true [] false
    None false.

(** The normalisation the specification names for navigation paths: a
    trailing "index.html" after a slash is dropped, so that "/index.html"
    and "/" are equivalent. *)
Definition stripIndexHtml (path : string) : string :=
  if endsWith path "/index.html"
  then String.substring 0 (String.length path - 10) path
  else path.

(** Every pending timer is the one [currentTimeout] names. *)
Definition timers_tracked (p : Page) : Prop :=
  ∀ id, is_Some (timers p !! id) → currentTimeout p = Some id.

(** The text [updateThemeLabel] writes, as a function of mode and phase. *)
Definition themeLabelText (mode phase : string) : string :=
  if String.eqb mode "auto" then "Auto • " +:+ phase
  else if String.eqb mode "light" then "Light"
  else if String.eqb mode "dark" then "Dark"
  else "Auto".

(** The three attributes of the root element carry values of their
    enumerations, and an explicit mode is also the theme. *)
Definition attributes_valid (p : Page) : Prop :=
  ∃ mode theme phase,
    root p !! "data-mode" = Some mode ∧
    root p !! "data-theme" = Some theme ∧
    root p !! "data-phase" = Some phase ∧
    mode ∈ THEME_MODES ∧
    theme ∈ ["light"; "dark"] ∧
    phase ∈ ["morning"; "afternoon"; "evening"; "night"] ∧
    (mode ≠ "auto" → theme = mode).


(** * Properties *)

(** ** Helper facts *)

(** Membership in a literal list. *)
Ltac elem_of_literal :=
  repeat first [apply list_elem_of_here | apply list_elem_of_further].

(** Evaluate JavaScript's [%] on literals. *)
Ltac eval_rem :=
  repeat match goal with
         | |- context [Z.rem ?a ?b] =>
             let v := eval vm_compute in (Z.rem a b) in
             change (Z.rem a b) with v
         end.

Ltac unfold_elem_of :=
  rewrite ?elem_of_cons, ?elem_of_nil in *.

Lemma getHours_range (now : Date.t) : 0 ≤ Date.getHours now < 24.
Proof. unfold Date.getHours. apply Z.mod_pos_bound. lia. Qed.

Lemma getHours_at_time (day h m s ms : Z) :
  0 ≤ h < 24 → 0 ≤ m < 60 → 0 ≤ s < 60 → 0 ≤ ms < 1000 →
  Date.getHours (Date.at_time day h m s ms) = h.
Proof.
  intros Hh Hm Hs Hms.
  unfold Date.getHours, Date.at_time, Date.MS_PER_DAY, Date.MS_PER_HOUR.
  replace (day * 86400000 + h * 3600000 + m * 60000 + s * 1000 + ms)
    with ((m * 60000 + s * 1000 + ms) + (day * 24 + h) * 3600000) by lia.
  rewrite Z.div_add by lia.
  rewrite (Z.div_small (m * 60000 + s * 1000 + ms)) by lia.
  rewrite Z.add_0_l, Z.add_comm, Z.mod_add by lia.
  apply Z.mod_small; lia.
Qed.

Lemma theme_mode_cases (mode : string) :
  mode ∈ THEME_MODES → mode = "auto" ∨ mode = "light" ∨ mode = "dark".
Proof. unfold THEME_MODES. unfold_elem_of. tauto. Qed.

Lemma includes_theme_modes (s : string) :
  includes THEME_MODES (Some s) = true ↔ s ∈ THEME_MODES.
Proof.
  unfold includes, THEME_MODES. simpl.
  rewrite !orb_true_iff, !String.eqb_eq. unfold_elem_of.
  intuition congruence.
Qed.

Lemma getStoredThemeMode_Granted (items : gmap string string) (full : bool) :
  getStoredThemeMode (Granted items full) =
    match items !! THEME_KEY with
    | Some s => if includes THEME_MODES (Some s) then s else "auto"
    | None => "auto"
    end.
Proof.
  unfold getStoredThemeMode, getItem, mbind, completion_bind, try_catch.
  by destruct (items !! THEME_KEY).
Qed.

Lemma getStoredThemeMode_valid (ls : Storage) :
  getStoredThemeMode ls ∈ THEME_MODES.
Proof.
  destruct ls as [|items full]; [cbv; elem_of_literal|].
  rewrite getStoredThemeMode_Granted.
  destruct (items !! THEME_KEY) as [s|] eqn:Hs;
    [|unfold THEME_MODES; elem_of_literal].
  destruct (includes THEME_MODES (Some s)) eqn:Hin;
    [|unfold THEME_MODES; elem_of_literal].
  apply (proj1 (includes_theme_modes s)). exact Hin.
Qed.

(** ** Phase resolver *)

(** C1. For every hour [h] of the day (every instant whose local hour is
    [h]), [getCurrentPhase] returns one of the four phase names: morning on
    [5,10), afternoon on [10,16), evening on [16,19), night otherwise; the
    lower bounds are inclusive, so 5 is morning, 10 afternoon, 16 evening,
    19 night, and 4 and 0 are night. *)
Theorem getCurrentPhase_table (now : Date.t) (h : Z) :
  Date.getHours now = h →
  0 ≤ h < 24 ∧
  getCurrentPhase now ∈ ["morning"; "afternoon"; "evening"; "night"] ∧
  (5 ≤ h < 10 → getCurrentPhase now = "morning") ∧
  (10 ≤ h < 16 → getCurrentPhase now = "afternoon") ∧
  (16 ≤ h < 19 → getCurrentPhase now = "evening") ∧
  (h < 5 ∨ 19 ≤ h → getCurrentPhase now = "night") ∧
  (h = 5 → getCurrentPhase now = "morning") ∧
  (h = 10 → getCurrentPhase now = "afternoon") ∧
  (h = 16 → getCurrentPhase now = "evening") ∧
  (h = 19 → getCurrentPhase now = "night") ∧
  (h = 4 → getCurrentPhase now = "night") ∧
  (h = 0 → getCurrentPhase now = "night").
Proof.
  intros Hh. pose proof (getHours_range now) as Hr. rewrite Hh in Hr.
  unfold getCurrentPhase. rewrite Hh.
  split; [exact Hr|].
  destruct (5 <=? h) eqn:H5, (h <? 10) eqn:H10,
           (10 <=? h) eqn:H10', (h <? 16) eqn:H16,
           (16 <=? h) eqn:H16', (h <? 19) eqn:H19; simpl;
    (split; [elem_of_literal|]); repeat split; intros; (reflexivity || lia).
Qed.

Lemma getCurrentPhase_table_witness :
  Date.getHours (Date.at_time 0 5 0 0 0) = 5 ∧
  getCurrentPhase (Date.at_time 0 5 0 0 0) = "morning".
Proof.
  split; [reflexivity|].
  apply (getCurrentPhase_table (Date.at_time 0 5 0 0 0) 5); reflexivity.
Defined.

(** ** Effective theme *)

(** C2. For a mode among auto, light and dark, [getEffectiveTheme] is the
    system preference when the mode is auto and the mode itself otherwise;
    the system preference is dark or light as the media query matches or
    not, and light when querying it throws. *)
Theorem getEffectiveTheme_resolve (mode : string) (media : completion bool) :
  mode ∈ THEME_MODES →
  (mode = "auto" → getEffectiveTheme mode media = getSystemTheme media) ∧
  (mode ≠ "auto" → getEffectiveTheme mode media = mode) ∧
  getEffectiveTheme mode media ∈ ["light"; "dark"] ∧
  getSystemTheme (Normal true) = "dark" ∧
  getSystemTheme (Normal false) = "light" ∧
  getSystemTheme Throw = "light" ∧
  getEffectiveTheme "light" (Normal true) = "light" ∧
  getEffectiveTheme "dark" (Normal false) = "dark" ∧
  getEffectiveTheme "auto" (Normal true) = "dark" ∧
  getEffectiveTheme "auto" (Normal false) = "light" ∧
  getEffectiveTheme "auto" Throw = "light".
Proof.
  intros Hmode.
  split; [intros ->; reflexivity|].
  split.
  { intros Hne. unfold getEffectiveTheme.
    apply String.eqb_neq in Hne. by rewrite Hne. }
  split; [|by repeat split].
  destruct (theme_mode_cases mode Hmode) as [-> | [-> | ->]];
    [destruct media as [[]|]|..]; cbn; elem_of_literal.
Qed.

Lemma getEffectiveTheme_resolve_witness :
  "auto" ∈ THEME_MODES ∧
  getEffectiveTheme "auto" (Normal true) = getSystemTheme (Normal true).
Proof.
  assert (Hin : "auto" ∈ THEME_MODES) by apply list_elem_of_here.
  split; [exact Hin|].
  exact (proj1 (getEffectiveTheme_resolve "auto" (Normal true) Hin) eq_refl).
Defined.

(** ** Mode store *)

(** C3. [getStoredThemeMode] returns the stored value when it is one of
    "auto", "light", "dark"; it returns "auto" for any other stored value,
    when nothing is stored and when the backend throws (the function has no
    throwing outcome).  When [setItem] of "dark" succeeds, reading back
    after [storeThemeMode] gives "dark". *)
Theorem getStoredThemeMode_read :
  (∀ items full v,
     items !! THEME_KEY = Some v → v ∈ THEME_MODES →
     getStoredThemeMode (Granted items full) = v) ∧
  (∀ items full v,
     items !! THEME_KEY = Some v → v ∉ THEME_MODES →
     getStoredThemeMode (Granted items full) = "auto") ∧
  (∀ items full,
     items !! THEME_KEY = None →
     getStoredThemeMode (Granted items full) = "auto") ∧
  getStoredThemeMode Denied = "auto" ∧
  (∀ ls ls',
     setItem ls THEME_KEY (Some "dark") = Normal ls' →
     storeThemeMode (Some "dark") ls = ls' ∧
     getStoredThemeMode (storeThemeMode (Some "dark") ls) = "dark").
Proof.
  repeat split.
  - intros items full v Hv Hin. rewrite getStoredThemeMode_Granted, Hv.
    apply includes_theme_modes in Hin. by rewrite Hin.
  - intros items full v Hv Hnin. rewrite getStoredThemeMode_Granted, Hv.
    destruct (includes THEME_MODES (Some v)) eqn:Hin; [|done].
    by apply includes_theme_modes in Hin.
  - intros items full Hv. by rewrite getStoredThemeMode_Granted, Hv.
  - unfold storeThemeMode. by rewrite H.
  - unfold storeThemeMode. rewrite H. simpl.
    destruct ls as [|items full]; simpl in H; [done|].
    destruct full; [done|]. injection H as <-.
    by rewrite getStoredThemeMode_Granted, lookup_insert_eq.
Qed.

Lemma getStoredThemeMode_read_witness :
  setItem (Granted ∅ false) THEME_KEY (Some "dark")
    = Normal (Granted {[THEME_KEY := "dark"]} false) ∧
  getStoredThemeMode (storeThemeMode (Some "dark") (Granted ∅ false)) = "dark".
Proof.
  assert (Hset : setItem (Granted ∅ false) THEME_KEY (Some "dark")
                 = Normal (Granted {[THEME_KEY := "dark"]} false))
    by reflexivity.
  split; [exact Hset|].
  destruct getStoredThemeMode_read as (_ & _ & _ & _ & Hrt).
  exact (proj2 (Hrt _ _ Hset)).
Defined.

(** ** Boundary delay *)

Lemma getHours_floor (now : Date.t) :
  Date.startOfDay now + Date.getHours now * Date.MS_PER_HOUR ≤ now
  < Date.startOfDay now + (Date.getHours now + 1) * Date.MS_PER_HOUR.
Proof.
  unfold Date.startOfDay, Date.getHours, Date.MS_PER_DAY, Date.MS_PER_HOUR.
  pose proof (Z.div_mod now 3600000 ltac:(lia)) as E1.
  pose proof (Z.mod_pos_bound now 3600000 ltac:(lia)) as B1.
  pose proof (Z.div_mod (now / 3600000) 24 ltac:(lia)) as E2.
  pose proof (Z.mod_pos_bound (now / 3600000) 24 ltac:(lia)) as B2.
  pose proof (Z.div_mod now 86400000 ltac:(lia)) as E3.
  pose proof (Z.mod_pos_bound now 86400000 ltac:(lia)) as B3.
  lia.
Qed.

Lemma nextPhaseDiff_eq (now : Date.t) :
  nextPhaseDiff now now =
    Date.startOfDay now
    + boundaryAfter (Date.getHours now) * Date.MS_PER_HOUR - now.
Proof.
  unfold nextPhaseDiff, boundaryAfter, Date.setHours, Date.addDay,
    Date.getTime, Date.MS_PER_DAY, Date.MS_PER_HOUR.
  simpl List.find.
  destruct (Date.getHours now <? 5); [simpl; eval_rem; lia|].
  destruct (Date.getHours now <? 10); [simpl; eval_rem; lia|].
  destruct (Date.getHours now <? 16); [simpl; eval_rem; lia|].
  destruct (Date.getHours now <? 19); simpl; eval_rem; lia.
Qed.



(** The second clock reading enters the delay only through its day. *)
Lemma nextPhaseDiff_same_day (now target0 : Date.t) :
  Date.startOfDay target0 = Date.startOfDay now →
  nextPhaseDiff now target0 = nextPhaseDiff now now.
Proof.
  intros Hday.
  unfold nextPhaseDiff, Date.setHours, Date.addDay, Date.getTime.
  by rewrite Hday.
Qed.




(** ** Theme update *)

Lemma storage_updateTheme (p : Page) : storage (updateTheme p) = storage p.
Proof.
  unfold updateTheme, updateThemeLabel.
  by destruct (label (applyTheme _ _ p)).
Qed.

Lemma root_updateTheme (p : Page) :
  root (updateTheme p) =
    <["data-phase" := getCurrentPhase (clock p)]>
      (<["data-theme" :=
           getEffectiveTheme (getStoredThemeMode (storage p)) (media p)]>
         (<["data-mode" := getStoredThemeMode (storage p)]> (root p))).
Proof.
  unfold updateTheme, updateThemeLabel.
  by destruct (label (applyTheme _ _ p)).
Qed.

Lemma label_updateTheme (p : Page) (old : string) :
  label p = Some old →
  label (updateTheme p) =
    Some (let mode := getStoredThemeMode (storage p) in
          if String.eqb mode "auto"
          then "Auto • " +:+ getCurrentPhase (clock p)
          else if String.eqb mode "light" then "Light"
          else if String.eqb mode "dark" then "Dark"
          else "Auto").
Proof.
  intros Hl. unfold updateTheme, updateThemeLabel.
  change (label (applyTheme ?m ?ph p)) with (label p). by rewrite Hl.
Qed.

Lemma applied_attributes (r : gmap string string) (mode theme phase : string) :
  let r' := <["data-phase" := phase]>
              (<["data-theme" := theme]> (<["data-mode" := mode]> r)) in
  r' !! "data-mode" = Some mode ∧
  r' !! "data-theme" = Some theme ∧
  r' !! "data-phase" = Some phase.
Proof.
  simpl. repeat split.
  - by rewrite !lookup_insert_ne, lookup_insert_eq by done.
  - by rewrite lookup_insert_ne, lookup_insert_eq by done.
  - by rewrite lookup_insert_eq.
Qed.

(** C7. On a fresh session (nothing stored under the key), with the system
    preference dark and the local time 08:30, [updateTheme] sets
    data-mode to auto, data-theme to dark and data-phase to morning, and the
    label, when the element exists, reads "Auto • morning".  In general the
    label reads "Auto • " followed by the phase when the mode is auto, and
    "Light" or "Dark" for the two other modes. *)
Theorem updateTheme_end_to_end (p : Page) (old : string) :
  label p = Some old →
  (∀ day,
     getItem (storage p) THEME_KEY = Normal None →
     media p = Normal true →
     clock p = Date.at_time day 8 30 0 0 →
     root (updateTheme p) !! "data-mode" = Some "auto" ∧
     root (updateTheme p) !! "data-theme" = Some "dark" ∧
     root (updateTheme p) !! "data-phase" = Some "morning" ∧
     label (updateTheme p) = Some "Auto • morning") ∧
  (getStoredThemeMode (storage p) = "auto" →
   label (updateTheme p) = Some ("Auto • " +:+ getCurrentPhase (clock p))) ∧
  (getStoredThemeMode (storage p) = "light" →
   label (updateTheme p) = Some "Light") ∧
  (getStoredThemeMode (storage p) = "dark" →
   label (updateTheme p) = Some "Dark").
Proof.
  intros Hl. rewrite (label_updateTheme p old Hl).
  split.
  { intros day Hget Hmedia Hclock.
    assert (Hmode : getStoredThemeMode (storage p) = "auto").
    { unfold getStoredThemeMode. by rewrite Hget. }
    assert (Hphase : getCurrentPhase (clock p) = "morning").
    { rewrite Hclock. unfold getCurrentPhase.
      by rewrite getHours_at_time by lia. }
    rewrite root_updateTheme, Hmode, Hphase, Hmedia.
    pose proof (applied_attributes (root p) "auto"
                  (getEffectiveTheme "auto" (Normal true)) "morning")
      as (Hm & Ht & Hp).
    by repeat split. }
  repeat split; intros ->; reflexivity.
Qed.

Lemma updateTheme_end_to_end_witness :
  label fresh_dark_morning = Some "" ∧
  root (updateTheme fresh_dark_morning) !! "data-theme" = Some "dark" ∧
  label (updateTheme fresh_dark_morning) = Some "Auto • morning".
Proof.
  assert (Hl : label fresh_dark_morning = Some "") by reflexivity.
  split; [exact Hl|].
  destruct (updateTheme_end_to_end fresh_dark_morning "" Hl) as [He2e _].
  destruct (He2e 0 eq_refl eq_refl eq_refl) as (_ & Ht & _ & Hlab).
  split; [exact Ht | exact Hlab].
Defined.

(** ** Pre-paint copy *)

(** C10. Whatever the hour, the stored value (a mode, anything else, none,
    or a throwing backend) and the system preference (dark, light, or a
    throwing query), [prePaintTheme] leaves the root element with the same
    attributes as [updateTheme]: data-mode, data-theme and data-phase carry
    the values of [getStoredThemeMode], [getEffectiveTheme] and
    [getCurrentPhase]. *)
Theorem prePaintTheme_agrees (p : Page) :
  PrePaint.getMode (storage p) = getStoredThemeMode (storage p) ∧
  PrePaint.getPhase (clock p) = getCurrentPhase (clock p) ∧
  PrePaint.getTheme (PrePaint.getMode (storage p)) (media p)
    = getEffectiveTheme (getStoredThemeMode (storage p)) (media p) ∧
  root (prePaintTheme p) = root (updateTheme p) ∧
  root (prePaintTheme p) !! "data-mode"
    = Some (getStoredThemeMode (storage p)) ∧
  root (prePaintTheme p) !! "data-theme"
    = Some (getEffectiveTheme (getStoredThemeMode (storage p)) (media p)) ∧
  root (prePaintTheme p) !! "data-phase"
    = Some (getCurrentPhase (clock p)) ∧
  root (updateTheme p) !! "data-mode" = root (prePaintTheme p) !! "data-mode" ∧
  root (updateTheme p) !! "data-theme" = root (prePaintTheme p) !! "data-theme" ∧
  root (updateTheme p) !! "data-phase" = root (prePaintTheme p) !! "data-phase".
Proof.
  assert (Hmode : PrePaint.getMode (storage p) = getStoredThemeMode (storage p))
    by reflexivity.
  assert (Hphase : PrePaint.getPhase (clock p) = getCurrentPhase (clock p))
    by reflexivity.
  assert (Htheme : ∀ mode, PrePaint.getTheme mode (media p)
                           = getEffectiveTheme mode (media p))
    by reflexivity.
  assert (Hroot : root (prePaintTheme p) = root (updateTheme p)).
  { rewrite root_updateTheme. unfold prePaintTheme, setAttribute. simpl.
    by rewrite Hmode, Hphase, Htheme. }
  pose proof (applied_attributes (root p) (getStoredThemeMode (storage p))
                (getEffectiveTheme (getStoredThemeMode (storage p)) (media p))
                (getCurrentPhase (clock p))) as (Hm & Ht & Hp).
  simpl in Hm, Ht, Hp. rewrite <- root_updateTheme in Hm, Ht, Hp.
  rewrite Hroot, Hmode, Htheme.
  by repeat split.
Qed.

(** ** Toggle *)

Lemma nextMode_cycle (mode : string) :
  mode ∈ THEME_MODES →
  nextMode mode = Some (cycleSuccessor mode) ∧ cycleSuccessor mode ∈ THEME_MODES.
Proof.
  intros Hin.
  destruct (theme_mode_cases mode Hin) as [-> | [-> | ->]];
    (split; [reflexivity | cbv; elem_of_literal]).
Qed.

Lemma getStoredThemeMode_insert (items : gmap string string) (full : bool)
    (mode : string) :
  mode ∈ THEME_MODES →
  getStoredThemeMode (Granted (<[THEME_KEY := mode]> items) full) = mode.
Proof.
  intros Hin. rewrite getStoredThemeMode_Granted, lookup_insert_eq.
  apply includes_theme_modes in Hin. by rewrite Hin.
Qed.

Lemma handleThemeToggle_writable (p : Page) (items : gmap string string) :
  storage p = Granted items false →
  handleThemeToggle p =
    updateTheme
      (set_storage
         (Granted (<[THEME_KEY := cycleSuccessor (getStoredThemeMode (storage p))]>
                     items) false) p).
Proof.
  intros Hs. unfold handleThemeToggle.
  destruct (nextMode_cycle _ (getStoredThemeMode_valid (storage p))) as [-> _].
  by rewrite Hs.
Qed.

(** C4. With a working store, one activation of the toggle takes the
    current mode, computes the next one as
    [THEME_MODES[(indexOf(current) + 1) % 3]] (light after auto, dark after
    light, auto after dark), stores it and runs [updateTheme] on the result;
    from auto, three activations lead through light and dark back to
    auto. *)
Theorem handleThemeToggle_cycle (p : Page) (items : gmap string string) :
  storage p = Granted items false →
  let current := getStoredThemeMode (storage p) in
  let next := cycleSuccessor current in
  array_get THEME_MODES (Z.rem (indexOf THEME_MODES current + 1) 3) = Some next ∧
  (current = "auto" → next = "light") ∧
  (current = "light" → next = "dark") ∧
  (current = "dark" → next = "auto") ∧
  storage (handleThemeToggle p) = Granted (<[THEME_KEY := next]> items) false ∧
  handleThemeToggle p =
    updateTheme (set_storage (Granted (<[THEME_KEY := next]> items) false) p) ∧
  getStoredThemeMode (storage (handleThemeToggle p)) = next ∧
  root (handleThemeToggle p) !! "data-mode" = Some next ∧
  (current = "auto" →
   getStoredThemeMode (storage (handleThemeToggle p)) = "light" ∧
   getStoredThemeMode (storage (handleThemeToggle (handleThemeToggle p)))
     = "dark" ∧
   getStoredThemeMode
     (storage (handleThemeToggle (handleThemeToggle (handleThemeToggle p))))
     = "auto").
Proof.
  intros Hs current next.
  destruct (nextMode_cycle current (getStoredThemeMode_valid (storage p)))
    as [Hnext Hvalid].
  assert (Hstep : ∀ q its,
            storage q = Granted its false →
            storage (handleThemeToggle q)
              = Granted (<[THEME_KEY :=
                             cycleSuccessor (getStoredThemeMode (storage q))]>
                           its) false ∧
            getStoredThemeMode (storage (handleThemeToggle q))
              = cycleSuccessor (getStoredThemeMode (storage q))).
  { intros q its Hq.
    rewrite (handleThemeToggle_writable q its Hq), storage_updateTheme.
    split; [reflexivity|]. simpl.
    apply getStoredThemeMode_insert.
    apply (nextMode_cycle _ (getStoredThemeMode_valid (storage q))). }
  destruct (Hstep p items Hs) as [Hst1 Hm1].
  split; [exact Hnext|].
  split; [by intros ->|]. split; [by intros ->|]. split; [by intros ->|].
  split; [exact Hst1|].
  split; [exact (handleThemeToggle_writable p items Hs)|].
  split; [exact Hm1|].
  split.
  { rewrite (handleThemeToggle_writable p items Hs), root_updateTheme.
    simpl storage. fold current. fold next.
    rewrite (getStoredThemeMode_insert items false next Hvalid).
    apply applied_attributes. }
  intros Hauto.
  destruct (Hstep _ _ Hst1) as [Hst2 Hm2].
  destruct (Hstep _ _ Hst2) as [Hst3 Hm3].
  fold current in Hm1. rewrite Hauto in Hm1.
  rewrite Hm1 in Hm2. rewrite Hm2 in Hm3.
  by repeat split.
Qed.

Lemma handleThemeToggle_cycle_witness :
  storage fresh_dark_morning = Granted ∅ false ∧
  getStoredThemeMode
    (storage (handleThemeToggle
                (handleThemeToggle (handleThemeToggle fresh_dark_morning))))
  = "auto".
Proof.
  assert (Hs : storage fresh_dark_morning = Granted ∅ false) by reflexivity.
  split; [exact Hs|].
  destruct (handleThemeToggle_cycle fresh_dark_morning ∅ Hs)
    as (_ & _ & _ & _ & _ & _ & _ & _ & Hthree).
  exact (proj2 (proj2 (Hthree eq_refl))).
Defined.

(** C6, amended.  When the write of a toggle activation throws, the error
    is swallowed and the store is left as it was; the [updateTheme] that
    follows reads the mode from the store again, so the page shows the mode
    that was current before the activation (the stored one, or auto when the
    backend cannot be read), and every later activation starts from that
    same mode. *)
Theorem handleThemeToggle_write_fails (p : Page) :
  setItem (storage p) THEME_KEY (nextMode (getStoredThemeMode (storage p)))
    = Throw →
  storage (handleThemeToggle p) = storage p ∧
  handleThemeToggle p = updateTheme p ∧
  root (handleThemeToggle p) !! "data-mode"
    = Some (getStoredThemeMode (storage p)) ∧
  root (handleThemeToggle p) !! "data-theme"
    = Some (getEffectiveTheme (getStoredThemeMode (storage p)) (media p)) ∧
  getStoredThemeMode (storage (handleThemeToggle p))
    = getStoredThemeMode (storage p).
Proof.
  intros Hthrow.
  assert (Hsame : handleThemeToggle p = updateTheme p).
  { unfold handleThemeToggle, storeThemeMode. rewrite Hthrow. simpl.
    by destruct p. }
  rewrite Hsame, storage_updateTheme, root_updateTheme.
  pose proof (applied_attributes (root p) (getStoredThemeMode (storage p))
                (getEffectiveTheme (getStoredThemeMode (storage p)) (media p))
                (getCurrentPhase (clock p))) as (Hm & Ht & _).
  by repeat split.
Qed.

Lemma handleThemeToggle_write_fails_witness :
  setItem (storage light_store_full) THEME_KEY
    (nextMode (getStoredThemeMode (storage light_store_full))) = Throw ∧
  root (handleThemeToggle light_store_full) !! "data-mode"
    = Some (getStoredThemeMode (storage light_store_full)).
Proof.
  assert (Hthrow : setItem (storage light_store_full) THEME_KEY
            (nextMode (getStoredThemeMode (storage light_store_full))) = Throw)
    by reflexivity.
  split; [exact Hthrow|].
  exact (proj1 (proj2 (proj2
           (handleThemeToggle_write_fails light_store_full Hthrow)))).
Defined.

(** C6 as stated fails: with "light" stored and a store that refuses
    writes, the next mode is "dark", yet the update after the failed write
    applies "light". *)
Lemma handleThemeToggle_failed_write_keeps_old_mode :
  setItem (storage light_store_full) THEME_KEY
    (nextMode (getStoredThemeMode (storage light_store_full))) = Throw ∧
  nextMode (getStoredThemeMode (storage light_store_full)) = Some "dark" ∧
  root (handleThemeToggle light_store_full) !! "data-mode" = Some "light" ∧
  root (handleThemeToggle light_store_full) !! "data-theme" = Some "light" ∧
  label (handleThemeToggle light_store_full) = Some "Light" ∧
  ¬ (∀ p,
       setItem (storage p) THEME_KEY
         (nextMode (getStoredThemeMode (storage p))) = Throw →
       root (handleThemeToggle p) !! "data-mode"
         = nextMode (getStoredThemeMode (storage p))).
Proof.
  assert (Hmode : root (handleThemeToggle light_store_full) !! "data-mode"
                  = Some "light") by (by vm_compute).
  split; [by vm_compute|]. split; [by vm_compute|].
  split; [exact Hmode|]. split; [by vm_compute|]. split; [by vm_compute|].
  intros H. specialize (H light_store_full eq_refl).
  rewrite Hmode in H. discriminate H.
Qed.

(** ** Navigation *)

(** C9. There are a current path and a link path that are different, stay
    different once a trailing /index.html is normalised away, and for which
    [setActiveNavigation] still marks the link with aria-current: the
    substring test accepts "/about.html" on the page
    "/projects/about.html". *)
Theorem setActiveNavigation_substring_misfire :
  ∃ currentPath linkPath : string,
    currentPath ≠ linkPath ∧
    stripIndexHtml currentPath ≠ stripIndexHtml linkPath ∧
    (String.eqb currentPath "/" && endsWith linkPath "/index.html") = false ∧
    (endsWith currentPath "/index.html" && String.eqb linkPath "/") = false ∧
    str_includes currentPath linkPath = true ∧
    isCurrentPage currentPath linkPath = true ∧
    ∀ (ls : Storage) m now tm nt r lab tg cl ct mq,
      navLinks
        (setActiveNavigation
           (mkPage ls m now currentPath tm nt r lab tg
              [mkNavLink linkPath None] cl ct mq))
      = [mkNavLink linkPath (Some "page")].
Proof.
  exists "/projects/about.html", "/about.html".
  repeat split; try discriminate; reflexivity.
Qed.

(** ** Boundary scheduler *)

Lemma timers_tracked_size (p : Page) :
  timers_tracked p → (size (timers p) ≤ 1)%nat.
Proof.
  intros Hinv.
  destruct (currentTimeout p) as [c|] eqn:Hc.
  - destruct (timers p !! c) as [d|] eqn:Hd.
    + assert (Hm : timers p = {[c := d]}).
      { apply map_eq. intros i. destruct (decide (i = c)) as [->|Hne].
        - by rewrite lookup_singleton_eq.
        - rewrite lookup_singleton_ne by done.
          apply eq_None_not_Some. intros Hi.
          apply Hinv in Hi. congruence. }
      rewrite Hm, map_size_singleton. lia.
    + assert (Hm : timers p = ∅).
      { apply map_empty. intros i. apply eq_None_not_Some. intros Hi.
        pose proof (Hinv i Hi) as Hic.
        assert (i = c) as -> by congruence.
        rewrite Hd in Hi. by destruct Hi. }
      rewrite Hm, map_size_empty. lia.
  - assert (Hm : timers p = ∅).
    { apply map_empty. intros i. apply eq_None_not_Some. intros Hi.
      apply Hinv in Hi. congruence. }
    rewrite Hm, map_size_empty. lia.
Qed.

(** Cancelling the timer [currentTimeout] names leaves nothing pending. *)
Lemma timers_tracked_cancel (p : Page) :
  timers_tracked p →
  timers (match currentTimeout p with
          | Some id => clearTimeout id p
          | None => p
          end) = ∅.
Proof.
  intros Hinv. apply map_empty. intros i. apply eq_None_not_Some. intros Hi.
  destruct (currentTimeout p) as [c|] eqn:Hc.
  - simpl in Hi. destruct (decide (i = c)) as [->|Hne].
    + rewrite lookup_delete_eq in Hi. by destruct Hi.
    + rewrite lookup_delete_ne in Hi by done.
      apply Hinv in Hi. congruence.
  - apply Hinv in Hi. congruence.
Qed.

Lemma schedulePhaseUpdate_arms (p : Page) :
  timers_tracked p →
  timers (schedulePhaseUpdate p)
    = {[next_timer p := getTimeUntilNextPhase (clock p) (clock p)]} ∧
  currentTimeout (schedulePhaseUpdate p) = Some (next_timer p).
Proof.
  intros Hinv. pose proof (timers_tracked_cancel p Hinv) as Hempty.
  unfold schedulePhaseUpdate.
  destruct (currentTimeout p) as [c|]; simpl in *; rewrite Hempty;
    by rewrite insert_empty.
Qed.

Lemma schedulePhaseUpdate_tracked (p : Page) :
  timers_tracked p → timers_tracked (schedulePhaseUpdate p).
Proof.
  intros Hinv. destruct (schedulePhaseUpdate_arms p Hinv) as [Ht Hc].
  intros id Hid. rewrite Ht in Hid. rewrite Hc.
  destruct (decide (id = next_timer p)) as [->|Hne]; [done|].
  rewrite lookup_singleton_ne in Hid by done. by destruct Hid.
Qed.

Lemma timers_updateTheme (p : Page) :
  timers (updateTheme p) = timers p ∧
  currentTimeout (updateTheme p) = currentTimeout p ∧
  next_timer (updateTheme p) = next_timer p.
Proof.
  unfold updateTheme, updateThemeLabel.
  by destruct (label (applyTheme _ _ p)).
Qed.

Lemma updateTheme_tracked (p : Page) :
  timers_tracked p → timers_tracked (updateTheme p).
Proof.
  intros Hinv id. destruct (timers_updateTheme p) as (-> & -> & _).
  apply Hinv.
Qed.

Lemma expire_empty (p : Page) (id : positive) :
  timers_tracked p → is_Some (timers p !! id) →
  timers (expire id p) = ∅ ∧ timers_tracked (expire id p).
Proof.
  intros Hinv Hid.
  assert (Hempty : timers (expire id p) = ∅).
  { pose proof (timers_tracked_cancel p Hinv) as Hc.
    by rewrite (Hinv id Hid) in Hc. }
  split; [exact Hempty|].
  intros i Hi. rewrite Hempty, lookup_empty in Hi. by destruct Hi.
Qed.

Lemma beforeunload_cancels (p : Page) :
  timers_tracked p →
  timers (beforeunload p) = ∅ ∧ timers_tracked (beforeunload p).
Proof.
  intros Hinv. pose proof (timers_tracked_cancel p Hinv) as Hc.
  assert (Hempty : timers (beforeunload p) = ∅).
  { unfold beforeunload.
    destruct (mediaQuery
                match currentTimeout p with
                | Some id => clearTimeout id p
                | None => p
                end); exact Hc. }
  split; [exact Hempty|].
  intros i Hi. rewrite Hempty, lookup_empty in Hi. by destruct Hi.
Qed.

Lemma clickListener_tracked (p : Page) :
  timers_tracked p →
  timers_tracked (if toggle p then set_clickListener true p else p).
Proof. intros Hinv. by destruct (toggle p). Qed.

Lemma mediaQuery_tracked (p : Page) :
  timers_tracked p →
  timers_tracked (match media p with
                  | Normal _ => set_mediaQuery true p
                  | Throw => p
                  end).
Proof. intros Hinv. by destruct (media p). Qed.

Lemma setActiveNavigation_tracked (p : Page) :
  timers_tracked p → timers_tracked (setActiveNavigation p).
Proof. intros Hinv. exact Hinv. Qed.

Lemma initializeTheme_tracked (p : Page) :
  fresh p → timers_tracked (initializeTheme p).
Proof.
  intros (Ht & Hc & _).
  assert (H0 : timers_tracked p).
  { intros i Hi. rewrite Ht, lookup_empty in Hi. by destruct Hi. }
  unfold initializeTheme.
  apply setActiveNavigation_tracked, schedulePhaseUpdate_tracked,
    mediaQuery_tracked, clickListener_tracked, updateTheme_tracked, H0.
Qed.

Lemma handle_tracked (e : Event) (p p' : Page) :
  timers_tracked p → handle e p = Some p' → timers_tracked p'.
Proof.
  intros Hinv He. destruct e as [| |id| |ls m now]; simpl in He.
  - destruct (clickListener p); [|done]. injection He as <-.
    unfold handleThemeToggle. by apply updateTheme_tracked.
  - destruct (mediaQuery p); [|done]. injection He as <-.
    unfold handleSystemThemeChange.
    destruct (String.eqb _ _); [by apply updateTheme_tracked | done].
  - destruct (timers p !! id) as [d|] eqn:Hd; [|done]. injection He as <-.
    unfold phaseTimerCallback.
    apply schedulePhaseUpdate_tracked, updateTheme_tracked.
    by apply expire_empty.
  - injection He as <-. by apply beforeunload_cancels.
  - injection He as <-. exact Hinv.
Qed.

Lemma reachable_tracked (p : Page) : reachable p → timers_tracked p.
Proof.
  induction 1 as [p Hfresh | e p p' _ IH He].
  - by apply initializeTheme_tracked.
  - by apply (handle_tracked e p p').
Qed.

(** C8. In every state the page can reach, at most one timer is pending and
    it is the one [currentTimeout] names.  [schedulePhaseUpdate] cancels it
    and leaves exactly the newly scheduled timer; a timer that fires is gone
    from the pending ones (it is one-shot), its callback runs [updateTheme]
    and then [schedulePhaseUpdate], which leaves exactly one new timer with
    the delay to the next boundary; [beforeunload] leaves none pending. *)
Theorem scheduler_single_timer (p : Page) :
  reachable p →
  (size (timers p) ≤ 1)%nat ∧
  (∀ id, is_Some (timers p !! id) → currentTimeout p = Some id) ∧
  (timers (schedulePhaseUpdate p)
     = {[next_timer p := getTimeUntilNextPhase (clock p) (clock p)]} ∧
   currentTimeout (schedulePhaseUpdate p) = Some (next_timer p) ∧
   size (timers (schedulePhaseUpdate p)) = 1%nat) ∧
  (∀ id p',
     handle (TimerFire id) p = Some p' →
     is_Some (timers p !! id) ∧
     timers (expire id p) = ∅ ∧
     p' = schedulePhaseUpdate (updateTheme (expire id p)) ∧
     timers p' = {[next_timer p :=
                     getTimeUntilNextPhase (clock p) (clock p)]} ∧
     size (timers p') = 1%nat) ∧
  timers (beforeunload p) = ∅ ∧
  (∀ e p', handle e p = Some p' → (size (timers p') ≤ 1)%nat).
Proof.
  intros Hreach. pose proof (reachable_tracked p Hreach) as Hinv.
  split; [by apply timers_tracked_size|].
  split; [exact Hinv|].
  split.
  { destruct (schedulePhaseUpdate_arms p Hinv) as [Ht Hc].
    repeat split; [exact Ht | exact Hc |].
    by rewrite Ht, map_size_singleton. }
  split.
  { intros id p' He. simpl in He.
    destruct (timers p !! id) as [d|] eqn:Hd; [|done]. injection He as <-.
    assert (Hid : is_Some (timers p !! id)) by (by rewrite Hd).
    destruct (expire_empty p id Hinv Hid) as [Hempty Hinv'].
    apply updateTheme_tracked in Hinv'.
    destruct (schedulePhaseUpdate_arms _ Hinv') as [Ht _].
    destruct (timers_updateTheme (expire id p)) as (_ & _ & Hn).
    assert (Hclock : clock (updateTheme (expire id p)) = clock p).
    { unfold updateTheme, updateThemeLabel.
      by destruct (label (applyTheme _ _ (expire id p))). }
    rewrite Hn, Hclock in Ht.
    change (next_timer (expire id p)) with (next_timer p) in Ht.
    unfold phaseTimerCallback.
    split; [done|]. split; [exact Hempty|]. split; [reflexivity|].
    split; [exact Ht|].
    by rewrite Ht, map_size_singleton. }
  split; [by apply beforeunload_cancels|].
  intros e p' He. apply timers_tracked_size. by apply (handle_tracked e p p').
Qed.

Lemma scheduler_single_timer_witness :
  reachable (initializeTheme fresh_dark_morning) ∧
  (size (timers (initializeTheme fresh_dark_morning)) ≤ 1)%nat.
Proof.
  assert (Hr : reachable (initializeTheme fresh_dark_morning)).
  { apply reachable_init. by repeat split. }
  split; [exact Hr|].
  exact (proj1 (scheduler_single_timer _ Hr)).
Defined.

(** * Further properties *)

(** Reduce record projections applied to explicit pages. *)
Ltac proj_simpl :=
  cbn [storage media clock location_pathname timers next_timer root label
       toggle navLinks clickListener currentTimeout mediaQuery] in *.

Lemma applied_attributes_twice (r : gmap string string)
    (mode theme phase : string) :
  <["data-phase" := phase]>
    (<["data-theme" := theme]>
       (<["data-mode" := mode]>
          (<["data-phase" := phase]>
             (<["data-theme" := theme]> (<["data-mode" := mode]> r)))))
  = <["data-phase" := phase]>
      (<["data-theme" := theme]> (<["data-mode" := mode]> r)).
Proof.
  apply map_eq. intros k. rewrite !lookup_insert.
  repeat case_decide; congruence.
Qed.

(** [updateTheme] as one record: only [root] and [label] change. *)
Lemma updateTheme_unfold (p : Page) :
  updateTheme p =
    mkPage (storage p) (media p) (clock p) (location_pathname p) (timers p)
      (next_timer p)
      (<["data-phase" := getCurrentPhase (clock p)]>
         (<["data-theme" :=
              getEffectiveTheme (getStoredThemeMode (storage p)) (media p)]>
            (<["data-mode" := getStoredThemeMode (storage p)]> (root p))))
      (match label p with
       | Some _ =>
           Some (themeLabelText (getStoredThemeMode (storage p))
                   (getCurrentPhase (clock p)))
       | None => None
       end)
      (toggle p) (navLinks p) (clickListener p) (currentTimeout p)
      (mediaQuery p).
Proof.
  destruct p as [ls m now loc tm nt r lab tg nav cl ct mq].
  unfold updateTheme, updateThemeLabel, applyTheme, setAttribute, set_root,
    set_label.
  proj_simpl. by destruct lab.
Qed.

(** ** Theme update, again *)

(** X1. Running [updateTheme] a second time with nothing changed in between
    gives the same page: same attributes, same label, nothing else
    touched. *)
Theorem updateTheme_idempotent (p : Page) :
  updateTheme (updateTheme p) = updateTheme p.
Proof.
  rewrite (updateTheme_unfold (updateTheme p)).
  rewrite (updateTheme_unfold p). proj_simpl.
  rewrite applied_attributes_twice. by destruct (label p).
Qed.

(** X2. [updateTheme] writes the three data attributes and the label text
    and nothing else: the store, the timers, the listeners, the navigation
    links and every other attribute of the root element are as before, and
    a missing label element stays missing. *)
Theorem updateTheme_frame (p : Page) :
  storage (updateTheme p) = storage p ∧
  media (updateTheme p) = media p ∧
  clock (updateTheme p) = clock p ∧
  location_pathname (updateTheme p) = location_pathname p ∧
  timers (updateTheme p) = timers p ∧
  next_timer (updateTheme p) = next_timer p ∧
  toggle (updateTheme p) = toggle p ∧
  navLinks (updateTheme p) = navLinks p ∧
  clickListener (updateTheme p) = clickListener p ∧
  currentTimeout (updateTheme p) = currentTimeout p ∧
  mediaQuery (updateTheme p) = mediaQuery p ∧
  (label p = None ↔ label (updateTheme p) = None) ∧
  (∀ name,
     name ≠ "data-mode" → name ≠ "data-theme" → name ≠ "data-phase" →
     root (updateTheme p) !! name = root p !! name).
Proof.
  rewrite (updateTheme_unfold p). proj_simpl.
  repeat split; try done.
  - by intros ->.
  - by destruct (label p).
  - intros name H1 H2 H3. by rewrite !lookup_insert_ne.
Qed.

Lemma getCurrentPhase_valid (now : Date.t) :
  getCurrentPhase now ∈ ["morning"; "afternoon"; "evening"; "night"].
Proof.
  unfold getCurrentPhase.
  destruct ((5 <=? Date.getHours now) && (Date.getHours now <? 10));
    [elem_of_literal|].
  destruct ((10 <=? Date.getHours now) && (Date.getHours now <? 16));
    [elem_of_literal|].
  destruct ((16 <=? Date.getHours now) && (Date.getHours now <? 19));
    elem_of_literal.
Qed.

Lemma getSystemTheme_valid (media : completion bool) :
  getSystemTheme media ∈ ["light"; "dark"].
Proof. destruct media as [[]|]; cbv; elem_of_literal. Qed.

Lemma getEffectiveTheme_valid (mode : string) (media : completion bool) :
  mode ∈ THEME_MODES →
  getEffectiveTheme mode media ∈ ["light"; "dark"] ∧
  (mode ≠ "auto" → getEffectiveTheme mode media = mode).
Proof.
  intros Hin.
  destruct (theme_mode_cases mode Hin) as [-> | [-> | ->]].
  - split; [apply getSystemTheme_valid | done].
  - split; [cbv; elem_of_literal | done].
  - split; [cbv; elem_of_literal | done].
Qed.

Lemma updateTheme_attributes_valid (p : Page) :
  attributes_valid (updateTheme p).
Proof.
  exists (getStoredThemeMode (storage p)),
    (getEffectiveTheme (getStoredThemeMode (storage p)) (media p)),
    (getCurrentPhase (clock p)).
  rewrite root_updateTheme.
  pose proof (applied_attributes (root p) (getStoredThemeMode (storage p))
                (getEffectiveTheme (getStoredThemeMode (storage p)) (media p))
                (getCurrentPhase (clock p))) as (Hm & Ht & Hp).
  pose proof (getStoredThemeMode_valid (storage p)) as Hvalid.
  destruct (getEffectiveTheme_valid _ (media p) Hvalid) as [Hth Hexp].
  pose proof (getCurrentPhase_valid (clock p)) as Hph.
  by repeat split.
Qed.

Lemma attributes_valid_root (p q : Page) :
  root p = root q → attributes_valid q → attributes_valid p.
Proof. unfold attributes_valid. by intros ->. Qed.

(** [schedulePhaseUpdate] as one record: only the timers, the next timer id
    and [currentTimeout] change. *)
Lemma schedulePhaseUpdate_unfold (p : Page) :
  schedulePhaseUpdate p =
    mkPage (storage p) (media p) (clock p) (location_pathname p)
      (<[next_timer p := getTimeUntilNextPhase (clock p) (clock p)]>
         (match currentTimeout p with
          | Some id => delete id (timers p)
          | None => timers p
          end))
      (Pos.succ (next_timer p))
      (root p) (label p) (toggle p) (navLinks p) (clickListener p)
      (Some (next_timer p)) (mediaQuery p).
Proof.
  destruct p as [ls m now loc tm nt r lab tg nav cl ct mq].
  unfold schedulePhaseUpdate, setTimeout, clearTimeout, set_currentTimeout,
    set_next_timer, set_timers.
  proj_simpl. by destruct ct.
Qed.

(** [beforeunload] as one record: the timer [currentTimeout] names is
    cancelled and the preference listener is detached. *)
Lemma beforeunload_unfold (p : Page) :
  beforeunload p =
    mkPage (storage p) (media p) (clock p) (location_pathname p)
      (match currentTimeout p with
       | Some id => delete id (timers p)
       | None => timers p
       end)
      (next_timer p) (root p) (label p) (toggle p) (navLinks p)
      (clickListener p) (currentTimeout p) false.
Proof.
  destruct p as [ls m now loc tm nt r lab tg nav cl ct mq].
  unfold beforeunload, clearTimeout, set_mediaQuery, set_timers.
  proj_simpl. by destruct ct, mq.
Qed.

(** [initializeTheme] as one record. *)
Lemma initializeTheme_unfold (p : Page) :
  initializeTheme p =
    mkPage (storage p) (media p) (clock p) (location_pathname p)
      (<[next_timer p := getTimeUntilNextPhase (clock p) (clock p)]>
         (match currentTimeout p with
          | Some id => delete id (timers p)
          | None => timers p
          end))
      (Pos.succ (next_timer p))
      (root (updateTheme p)) (label (updateTheme p)) (toggle p)
      (map (fun link =>
              if isCurrentPage (location_pathname p) (pathname link)
              then mkNavLink (pathname link) (Some "page")
              else mkNavLink (pathname link) None)
         (navLinks p))
      (if toggle p then true else clickListener p)
      (Some (next_timer p))
      (match media p with
       | Normal _ => true
       | Throw => mediaQuery p
       end).
Proof.
  unfold initializeTheme. cbv zeta.
  rewrite (updateTheme_unfold p). proj_simpl.
  destruct (toggle p), (media p);
    unfold set_clickListener, set_mediaQuery; proj_simpl;
    rewrite schedulePhaseUpdate_unfold; proj_simpl;
    unfold setActiveNavigation, set_navLinks; proj_simpl; reflexivity.
Qed.

Lemma handle_attributes_valid (e : Event) (p p' : Page) :
  attributes_valid p → handle e p = Some p' → attributes_valid p'.
Proof.
  intros Hinv He. destruct e as [| |id| |ls m now]; simpl in He.
  - destruct (clickListener p); [|done]. injection He as <-.
    apply updateTheme_attributes_valid.
  - destruct (mediaQuery p); [|done]. injection He as <-.
    unfold handleSystemThemeChange.
    destruct (String.eqb _ _); [apply updateTheme_attributes_valid | done].
  - destruct (timers p !! id); [|done]. injection He as <-.
    unfold phaseTimerCallback.
    apply (attributes_valid_root _ (updateTheme (expire id p)));
      [by rewrite schedulePhaseUpdate_unfold|].
    apply updateTheme_attributes_valid.
  - injection He as <-.
    apply (attributes_valid_root _ p); [by rewrite beforeunload_unfold|done].
  - injection He as <-. exact Hinv.
Qed.

(** ** Preference changes *)

(** X3. A change of the system preference is ignored while the stored mode
    is light or dark: the page is left exactly as it is.  In auto mode the
    handler runs [updateTheme], after which data-theme is the system
    preference.  In neither case is the store written. *)
Theorem handleSystemThemeChange_respects_choice (p : Page) :
  (getStoredThemeMode (storage p) ≠ "auto" →
   handleSystemThemeChange p = p) ∧
  (getStoredThemeMode (storage p) = "auto" →
   handleSystemThemeChange p = updateTheme p ∧
   root (handleSystemThemeChange p) !! "data-mode" = Some "auto" ∧
   root (handleSystemThemeChange p) !! "data-theme"
     = Some (getSystemTheme (media p))) ∧
  storage (handleSystemThemeChange p) = storage p.
Proof.
  unfold handleSystemThemeChange. repeat split.
  - intros Hne. apply String.eqb_neq in Hne. by rewrite Hne.
  - by rewrite H.
  - rewrite H. simpl. rewrite root_updateTheme, H.
    apply applied_attributes.
  - rewrite H. simpl. rewrite root_updateTheme, H.
    apply applied_attributes.
  - destruct (String.eqb _ _); [apply storage_updateTheme | done].
Qed.

Lemma handleSystemThemeChange_respects_choice_witness :
  getStoredThemeMode (storage light_store_full) ≠ "auto" ∧
  handleSystemThemeChange light_store_full = light_store_full.
Proof.
  assert (Hne : getStoredThemeMode (storage light_store_full) ≠ "auto")
    by (by vm_compute).
  split; [exact Hne|].
  exact (proj1 (handleSystemThemeChange_respects_choice light_store_full) Hne).
Defined.

(** ** The attribute contract *)

(** X4. In every state the page can reach, the root element carries
    data-mode among auto, light and dark, data-theme among light and dark,
    and data-phase among the four phases, whatever the store holds; and
    when data-mode is light or dark, data-theme equals it. *)
Theorem reachable_attributes_valid (p : Page) :
  reachable p → attributes_valid p.
Proof.
  induction 1 as [p Hfresh | e p p' _ IH He].
  - apply (attributes_valid_root _ (updateTheme p));
      [by rewrite initializeTheme_unfold|].
    apply updateTheme_attributes_valid.
  - by apply (handle_attributes_valid e p p').
Qed.

Lemma reachable_attributes_valid_witness :
  reachable (initializeTheme light_store_full) ∧
  attributes_valid (initializeTheme light_store_full).
Proof.
  assert (Hr : reachable (initializeTheme light_store_full)).
  { apply reachable_init. by repeat split. }
  split; [exact Hr|].
  exact (reachable_attributes_valid _ Hr).
Defined.

(** ** The label *)

(** X5. When the label element exists, [updateTheme] leaves it with one of
    six texts: "Light", "Dark", or "Auto • " followed by one of the four
    phases.  The fallback text "Auto" of [updateThemeLabel] is never
    shown. *)
Theorem updateTheme_label_texts (p : Page) (old : string) :
  label p = Some old →
  label (updateTheme p)
    ∈ [Some "Light"; Some "Dark"; Some "Auto • morning";
       Some "Auto • afternoon"; Some "Auto • evening"; Some "Auto • night"] ∧
  label (updateTheme p) ≠ Some "Auto".
Proof.
  intros Hl. rewrite (label_updateTheme p old Hl).
  pose proof (getCurrentPhase_valid (clock p)) as Hph.
  destruct (theme_mode_cases _ (getStoredThemeMode_valid (storage p)))
    as [-> | [-> | ->]]; cbn.
  - unfold_elem_of.
    destruct Hph as [-> | [-> | [-> | [-> | []]]]]; cbn;
      (split; [tauto | discriminate]).
  - split; [elem_of_literal | discriminate].
  - split; [elem_of_literal | discriminate].
Qed.

Lemma updateTheme_label_texts_witness :
  label light_store_full = Some "" ∧
  label (updateTheme light_store_full) ≠ Some "Auto".
Proof.
  assert (Hl : label light_store_full = Some "") by reflexivity.
  split; [exact Hl|].
  exact (proj2 (updateTheme_label_texts light_store_full "" Hl)).
Defined.

(** ** Time *)

(** An instant splits into its day, its hour and the rest. *)
Lemma hour_decomposition (t : Date.t) :
  ∃ d h,
    0 ≤ h < 24 ∧ Date.getHours t = h ∧
    Date.startOfDay t = d * Date.MS_PER_DAY ∧
    d * Date.MS_PER_DAY + h * Date.MS_PER_HOUR ≤ t
    < d * Date.MS_PER_DAY + (h + 1) * Date.MS_PER_HOUR.
Proof.
  exists (t / Date.MS_PER_DAY), (Date.getHours t).
  pose proof (getHours_range t). pose proof (getHours_floor t) as Hf.
  unfold Date.startOfDay in *. by repeat split; try lia.
Qed.

Lemma getCurrentPhase_of_hour (t : Date.t) :
  (5 ≤ Date.getHours t < 10 → getCurrentPhase t = "morning") ∧
  (10 ≤ Date.getHours t < 16 → getCurrentPhase t = "afternoon") ∧
  (16 ≤ Date.getHours t < 19 → getCurrentPhase t = "evening") ∧
  (Date.getHours t < 5 ∨ 19 ≤ Date.getHours t → getCurrentPhase t = "night").
Proof.
  unfold getCurrentPhase.
  destruct (5 <=? Date.getHours t) eqn:H5, (Date.getHours t <? 10) eqn:H10,
           (10 <=? Date.getHours t) eqn:H10', (Date.getHours t <? 16) eqn:H16,
           (16 <=? Date.getHours t) eqn:H16', (Date.getHours t <? 19) eqn:H19;
    simpl; repeat split; intros; (reflexivity || lia).
Qed.



(** X6. When the two clock readings fall on the same day, the delay
    [getTimeUntilNextPhase] starts from leads exactly to the next change of
    phase: at every instant from the first reading up to, but not including,
    the first reading plus [nextPhaseDiff], [getCurrentPhase] is what it is
    at the first reading, and at the first reading plus [nextPhaseDiff] it
    is different. *)
Theorem nextPhaseDiff_reaches_phase_change (now target0 : Date.t) :
  Date.startOfDay target0 = Date.startOfDay now →
  (∀ t, now ≤ t < now + nextPhaseDiff now target0 →
        getCurrentPhase t = getCurrentPhase now) ∧
  getCurrentPhase (now + nextPhaseDiff now target0) ≠ getCurrentPhase now.
Proof.
  intros Hday. rewrite (nextPhaseDiff_same_day now target0 Hday).
  rewrite nextPhaseDiff_eq.
  destruct (hour_decomposition now) as (dn & h & Hh & Hgh & Hsod & Hfl).
  rewrite Hsod, Hgh.
  pose proof (getCurrentPhase_of_hour now) as (Pm & Pa & Pe & Pn).
  rewrite Hgh in Pm, Pa, Pe, Pn.
  unfold Date.MS_PER_DAY, Date.MS_PER_HOUR in *.
  split.
  - intros t Ht.
    destruct (hour_decomposition t) as (dt & ht & Hht & Hght & _ & Hflt).
    pose proof (getCurrentPhase_of_hour t) as (Qm & Qa & Qe & Qn).
    rewrite Hght in Qm, Qa, Qe, Qn.
    unfold Date.MS_PER_DAY, Date.MS_PER_HOUR in *.
    unfold boundaryAfter in Ht.
    destruct (h <? 5) eqn:H5.
    { rewrite Pn, Qn by lia. reflexivity. }
    destruct (h <? 10) eqn:H10.
    { rewrite Pm, Qm by lia. reflexivity. }
    destruct (h <? 16) eqn:H16.
    { rewrite Pa, Qa by lia. reflexivity. }
    destruct (h <? 19) eqn:H19.
    { rewrite Pe, Qe by lia. reflexivity. }
    rewrite Pn, Qn by lia. reflexivity.
  - replace (now + (dn * 86400000 + boundaryAfter h * 3600000 - now))
      with (dn * 86400000 + boundaryAfter h * 3600000) by lia.
    unfold boundaryAfter.
    destruct (h <? 5) eqn:H5.
    { rewrite Pn by lia.
      replace (dn * 86400000 + 5 * 3600000)
        with (Date.at_time dn 5 0 0 0) by (unfold Date.at_time, Date.MS_PER_DAY, Date.MS_PER_HOUR; lia).
      destruct (getCurrentPhase_of_hour (Date.at_time dn 5 0 0 0))
        as (Q & _). rewrite getHours_at_time in Q by lia.
      rewrite Q by lia. discriminate. }
    destruct (h <? 10) eqn:H10.
    { rewrite Pm by lia.
      replace (dn * 86400000 + 10 * 3600000)
        with (Date.at_time dn 10 0 0 0) by (unfold Date.at_time, Date.MS_PER_DAY, Date.MS_PER_HOUR; lia).
      destruct (getCurrentPhase_of_hour (Date.at_time dn 10 0 0 0))
        as (_ & Q & _). rewrite getHours_at_time in Q by lia.
      rewrite Q by lia. discriminate. }
    destruct (h <? 16) eqn:H16.
    { rewrite Pa by lia.
      replace (dn * 86400000 + 16 * 3600000)
        with (Date.at_time dn 16 0 0 0) by (unfold Date.at_time, Date.MS_PER_DAY, Date.MS_PER_HOUR; lia).
      destruct (getCurrentPhase_of_hour (Date.at_time dn 16 0 0 0))
        as (_ & _ & Q & _). rewrite getHours_at_time in Q by lia.
      rewrite Q by lia. discriminate. }
    destruct (h <? 19) eqn:H19.
    { rewrite Pe by lia.
      replace (dn * 86400000 + 19 * 3600000)
        with (Date.at_time dn 19 0 0 0) by (unfold Date.at_time, Date.MS_PER_DAY, Date.MS_PER_HOUR; lia).
      destruct (getCurrentPhase_of_hour (Date.at_time dn 19 0 0 0))
        as (_ & _ & _ & Q). rewrite getHours_at_time in Q by lia.
      rewrite Q by lia. discriminate. }
    rewrite Pn by lia.
    replace (dn * 86400000 + 29 * 3600000)
      with (Date.at_time (dn + 1) 5 0 0 0) by (unfold Date.at_time, Date.MS_PER_DAY, Date.MS_PER_HOUR; lia).
    destruct (getCurrentPhase_of_hour (Date.at_time (dn + 1) 5 0 0 0))
      as (Q & _). rewrite getHours_at_time in Q by lia.
    rewrite Q by lia. discriminate.
Qed.

Lemma nextPhaseDiff_reaches_phase_change_witness :
  Date.startOfDay (Date.at_time 0 9 59 59 1)
    = Date.startOfDay (Date.at_time 0 9 59 59 0) ∧
  getCurrentPhase
    (Date.at_time 0 9 59 59 0
     + nextPhaseDiff (Date.at_time 0 9 59 59 0) (Date.at_time 0 9 59 59 1))
  ≠ getCurrentPhase (Date.at_time 0 9 59 59 0).
Proof.
  assert (Hday : Date.startOfDay (Date.at_time 0 9 59 59 1)
                 = Date.startOfDay (Date.at_time 0 9 59 59 0)) by reflexivity.
  split; [exact Hday|].
  exact (proj2 (nextPhaseDiff_reaches_phase_change _ _ Hday)).
Defined.






(** ** The mode store and the toggle, again *)

Lemma indexOf_absent (s : string) :
  s ∉ THEME_MODES → indexOf THEME_MODES s = -1.
Proof.
  unfold THEME_MODES. intros Hnin. unfold_elem_of.
  assert (H1 : String.eqb "auto" s = false) by (apply String.eqb_neq; naive_solver).
  assert (H2 : String.eqb "light" s = false) by (apply String.eqb_neq; naive_solver).
  assert (H3 : String.eqb "dark" s = false) by (apply String.eqb_neq; naive_solver).
  cbn [indexOf]. by rewrite H1, H2, H3.
Qed.

Lemma cycleSuccessor_changes (mode : string) :
  mode ∈ THEME_MODES →
  cycleSuccessor mode ≠ mode ∧
  cycleSuccessor (cycleSuccessor mode) ≠ mode ∧
  cycleSuccessor (cycleSuccessor (cycleSuccessor mode)) = mode.
Proof.
  intros Hin.
  destruct (theme_mode_cases mode Hin) as [-> | [-> | ->]]; by cbv.
Qed.

Lemma handleThemeToggle_step (p : Page) (items : gmap string string) :
  storage p = Granted items false →
  storage (handleThemeToggle p)
    = Granted (<[THEME_KEY := cycleSuccessor (getStoredThemeMode (storage p))]>
                 items) false ∧
  getStoredThemeMode (storage (handleThemeToggle p))
    = cycleSuccessor (getStoredThemeMode (storage p)) ∧
  root (handleThemeToggle p) !! "data-mode"
    = Some (cycleSuccessor (getStoredThemeMode (storage p))).
Proof.
  intros Hs.
  pose proof (proj2 (nextMode_cycle _ (getStoredThemeMode_valid (storage p))))
    as Hvalid.
  rewrite (handleThemeToggle_writable p items Hs).
  rewrite storage_updateTheme, root_updateTheme.
  cbn [storage set_storage].
  rewrite (getStoredThemeMode_insert items false _ Hvalid).
  split; [reflexivity|]. split; [reflexivity|].
  apply applied_attributes.
Qed.

Lemma storeThemeMode_frame (ls : Storage) (v key : string) :
  key ≠ THEME_KEY →
  getItem (storeThemeMode (Some v) ls) key = getItem ls key.
Proof.
  intros Hne. destruct ls as [|items [|]]; try done.
  unfold storeThemeMode. cbn. by rewrite lookup_insert_ne.
Qed.

(** X10. Whatever string is taken as the current mode, the next mode the
    toggle computes is defined, is one of auto, light and dark, and differs
    from the current one; for a string that is none of the three, where
    [indexOf] gives -1, it is "auto".  The toggle therefore never stores
    "undefined". *)
Theorem nextMode_total (s : string) :
  ∃ m, nextMode s = Some m ∧ m ∈ THEME_MODES ∧ m ≠ s ∧
       to_js_string (nextMode s) = m ∧
       (s ∉ THEME_MODES → m = "auto").
Proof.
  destruct (decide (s ∈ THEME_MODES)) as [Hin | Hnin].
  - exists (cycleSuccessor s).
    destruct (nextMode_cycle s Hin) as [Hn Hv].
    destruct (cycleSuccessor_changes s Hin) as [Hne _].
    rewrite Hn. by repeat split.
  - exists "auto". unfold nextMode. rewrite (indexOf_absent s Hnin).
    repeat split; [cbv; elem_of_literal |].
    intros <-. apply Hnin. cbv. elem_of_literal.
Qed.

(** X11. With a store that accepts writes, every activation of the toggle
    changes the stored mode, two activations do not bring it back, and three
    do, from whatever the store held before (a value that is not a mode
    counts as auto). *)
Theorem handleThemeToggle_period_three (p : Page) (items : gmap string string) :
  storage p = Granted items false →
  let mode0 := getStoredThemeMode (storage p) in
  let p1 := handleThemeToggle p in
  let p2 := handleThemeToggle p1 in
  let p3 := handleThemeToggle p2 in
  getStoredThemeMode (storage p1) ≠ mode0 ∧
  getStoredThemeMode (storage p2) ≠ mode0 ∧
  getStoredThemeMode (storage p3) = mode0 ∧
  root p3 !! "data-mode" = Some mode0.
Proof.
  intros Hs.
  destruct (handleThemeToggle_step p items Hs) as (Hs1 & Hm1 & _).
  destruct (handleThemeToggle_step _ _ Hs1) as (Hs2 & Hm2 & _).
  destruct (handleThemeToggle_step _ _ Hs2) as (_ & Hm3 & Hr3).
  destruct (cycleSuccessor_changes _ (getStoredThemeMode_valid (storage p)))
    as (H1 & H2 & H3).
  cbv zeta.
  rewrite Hr3, Hm3, Hm2, Hm1, H3.
  by repeat split.
Qed.

(** A page whose store holds a value that is not a mode. *)
Lemma handleThemeToggle_period_three_witness :
  storage fresh_dark_morning = Granted ∅ false ∧
  getStoredThemeMode
    (storage (handleThemeToggle (handleThemeToggle fresh_dark_morning)))
  ≠ getStoredThemeMode (storage fresh_dark_morning).
Proof.
  assert (Hs : storage fresh_dark_morning = Granted ∅ false) by reflexivity.
  split; [exact Hs|].
  exact (proj1 (proj2 (handleThemeToggle_period_three _ _ Hs))).
Defined.

(** X12. Storing any value and reading back: when the write throws, the
    store is unchanged; when it succeeds, the read gives the value if it is
    a mode and "auto" if it is not; in both cases every other key of the
    store is untouched, and storing never makes a readable store
    unreadable. *)
Theorem storeThemeMode_then_read (ls : Storage) (v : string) :
  (setItem ls THEME_KEY (Some v) = Throw →
   storeThemeMode (Some v) ls = ls) ∧
  (setItem ls THEME_KEY (Some v) ≠ Throw → v ∈ THEME_MODES →
   getStoredThemeMode (storeThemeMode (Some v) ls) = v) ∧
  (setItem ls THEME_KEY (Some v) ≠ Throw → v ∉ THEME_MODES →
   getStoredThemeMode (storeThemeMode (Some v) ls) = "auto") ∧
  (∀ key, key ≠ THEME_KEY →
          getItem (storeThemeMode (Some v) ls) key = getItem ls key) ∧
  (getItem ls THEME_KEY = Throw ↔
   getItem (storeThemeMode (Some v) ls) THEME_KEY = Throw).
Proof.
  destruct ls as [|items [|]]; unfold storeThemeMode; cbn [setItem try_catch];
    repeat split; try done.
  - intros _ Hin. by apply getStoredThemeMode_insert.
  - intros _ Hnin. rewrite getStoredThemeMode_Granted. cbn [to_js_string].
    rewrite lookup_insert_eq.
    destruct (includes THEME_MODES (Some v)) eqn:Hinc; [|done].
    by apply includes_theme_modes in Hinc.
  - intros key Hne. cbn [getItem to_js_string]. by rewrite lookup_insert_ne.
Qed.

Lemma storeThemeMode_then_read_witness :
  setItem (Granted ∅ false) THEME_KEY (Some "blue") ≠ Throw ∧
  ("blue" ∉ THEME_MODES) ∧
  getStoredThemeMode (storeThemeMode (Some "blue") (Granted ∅ false)) = "auto".
Proof.
  assert (Hok : setItem (Granted ∅ false) THEME_KEY (Some "blue") ≠ Throw)
    by discriminate.
  assert (Hnin : "blue" ∉ THEME_MODES).
  { unfold THEME_MODES. unfold_elem_of. intros [H | [H | [H | []]]];
      discriminate H. }
  split; [exact Hok|]. split; [exact Hnin|].
  exact (proj1 (proj2 (proj2
           (storeThemeMode_then_read (Granted ∅ false) "blue"))) Hok Hnin).
Defined.

(** X13. The script writes the store only when the toggle is activated:
    a preference change, a timer that fires and the unload handler leave
    the store as it is.  An activation of the toggle leaves every key but
    the theme key as it is, and what can then be read under the theme key is
    a mode. *)
Theorem handle_store_writes (e : Event) (p p' : Page) :
  handle e p = Some p' →
  (e = SystemThemeChange ∨ (∃ id, e = TimerFire id) ∨ e = BeforeUnload →
   storage p' = storage p) ∧
  (e = Click →
   (∀ key, key ≠ THEME_KEY →
           getItem (storage p') key = getItem (storage p) key) ∧
   (storage p' = storage p ∨
    ∃ m, m ∈ THEME_MODES ∧ getItem (storage p') THEME_KEY = Normal (Some m))).
Proof.
  intros He. split.
  - intros [-> | [[id ->] | ->]]; cbn [handle] in He.
    + destruct (mediaQuery p); [|done]. injection He as <-.
      unfold handleSystemThemeChange.
      destruct (String.eqb _ _); [apply storage_updateTheme | done].
    + destruct (timers p !! id); [|done]. injection He as <-.
      unfold phaseTimerCallback.
      by rewrite schedulePhaseUpdate_unfold, updateTheme_unfold.
    + injection He as <-. by rewrite beforeunload_unfold.
  - intros ->. cbn [handle] in He.
    destruct (clickListener p); [|done]. injection He as <-.
    unfold handleThemeToggle. rewrite storage_updateTheme.
    cbn [storage set_storage].
    destruct (nextMode_total (getStoredThemeMode (storage p)))
      as (m & Hm & Hin & _).
    rewrite Hm. split.
    + intros key Hne.
      by apply (storeThemeMode_frame (storage p) m key).
    + destruct (storage p) as [|items [|]]; [by left | by left |].
      right. exists m. split; [exact Hin|].
      unfold storeThemeMode. cbn. by rewrite lookup_insert_eq.
Qed.

Lemma handle_store_writes_witness :
  handle BeforeUnload light_store_full = Some (beforeunload light_store_full) ∧
  storage (beforeunload light_store_full) = storage light_store_full.
Proof.
  assert (He : handle BeforeUnload light_store_full
               = Some (beforeunload light_store_full)) by reflexivity.
  split; [exact He|].
  apply (proj1 (handle_store_writes _ _ _ He)). by right; right.
Defined.

(** ** Navigation, again *)

Lemma prefix_refl (s : string) : String.prefix s s = true.
Proof.
  induction s as [|a s IH]; [reflexivity|].
  cbn. by destruct (Ascii.ascii_dec a a).
Qed.

Lemma prefix_app (t v : string) : String.prefix t (t +:+ v) = true.
Proof.
  induction t as [|a t IH]; [by destruct v|].
  change (String a t +:+ v) with (String a (t +:+ v)).
  cbn. by destruct (Ascii.ascii_dec a a).
Qed.

Lemma str_includes_prefix (s t : string) :
  String.prefix t s = true → str_includes s t = true.
Proof. intros H. destruct s; cbn [str_includes]; by rewrite H. Qed.

Lemma str_includes_app (u t v : string) :
  str_includes (u +:+ t +:+ v) t = true.
Proof.
  induction u as [|a u IH].
  - change ("" +:+ t +:+ v) with (t +:+ v).
    apply str_includes_prefix, prefix_app.
  - change (String a u +:+ t +:+ v) with (String a (u +:+ t +:+ v)).
    cbn [str_includes]. rewrite IH. by destruct (String.prefix _ _).
Qed.

(** X14. [setActiveNavigation] keeps the links and their paths, in order;
    afterwards a link carries aria-current="page" exactly when the test
    accepts its path, whatever it carried before; it changes nothing but the
    links, and running it twice is the same as running it once. *)
Theorem setActiveNavigation_marks (p : Page) :
  map pathname (navLinks (setActiveNavigation p)) = map pathname (navLinks p) ∧
  (∀ link, link ∈ navLinks (setActiveNavigation p) →
     aria_current link
     = if isCurrentPage (location_pathname p) (pathname link)
       then Some "page" else None) ∧
  setActiveNavigation (setActiveNavigation p) = setActiveNavigation p ∧
  root (setActiveNavigation p) = root p ∧
  label (setActiveNavigation p) = label p ∧
  storage (setActiveNavigation p) = storage p ∧
  timers (setActiveNavigation p) = timers p.
Proof.
  destruct p as [ls m now loc tm nt r lab tg nav cl ct mq].
  unfold setActiveNavigation, set_navLinks. proj_simpl.
  split.
  { induction nav as [|l nav IH]; [reflexivity|].
    cbn [map]. rewrite IH. by destruct (isCurrentPage loc (pathname l)). }
  split.
  { intros link Hin. apply list_elem_of_fmap in Hin as (l & -> & _).
    by destruct (isCurrentPage loc (pathname l)) eqn:E; cbn; rewrite E. }
  split; [|done].
  f_equal. induction nav as [|l nav IH]; [reflexivity|].
  cbn [map]. rewrite IH. f_equal.
  by destruct (isCurrentPage loc (pathname l)) eqn:E; cbn; rewrite E.
Qed.

(** X15. For a link path other than "/", the test of
    [setActiveNavigation] is containment: the link is marked on every page
    whose path contains the link path anywhere, and the whole test equals
    "the current path contains the link path, or the current path is / and
    the link ends in /index.html"; the exact-match rule adds nothing. *)
Theorem isCurrentPage_is_containment (currentPath linkPath : string) :
  linkPath ≠ "/" →
  (∀ u v, currentPath = u +:+ linkPath +:+ v →
          isCurrentPage currentPath linkPath = true) ∧
  (currentPath = linkPath → isCurrentPage currentPath linkPath = true) ∧
  isCurrentPage currentPath linkPath
  = str_includes currentPath linkPath
    || (String.eqb currentPath "/" && endsWith linkPath "/index.html").
Proof.
  intros Hne. apply String.eqb_neq in Hne.
  assert (Hform : isCurrentPage currentPath linkPath
            = str_includes currentPath linkPath
              || (String.eqb currentPath "/"
                  && endsWith linkPath "/index.html")).
  { unfold isCurrentPage. rewrite Hne.
    destruct (String.eqb currentPath linkPath) eqn:Heq.
    - apply String.eqb_eq in Heq. subst linkPath.
      rewrite (str_includes_prefix _ _ (prefix_refl currentPath)).
      reflexivity.
    - cbn. rewrite !andb_false_r, !andb_true_r, !orb_false_r.
      apply orb_comm. }
  split; [|split; [|exact Hform]].
  - intros u v ->. rewrite Hform, str_includes_app. reflexivity.
  - intros ->. rewrite Hform.
    rewrite (str_includes_prefix _ _ (prefix_refl linkPath)). reflexivity.
Qed.

Lemma isCurrentPage_is_containment_witness :
  "/about.html" ≠ "/" ∧
  isCurrentPage ("/a/b" +:+ "/about.html" +:+ "?x") "/about.html" = true.
Proof.
  assert (Hne : "/about.html" ≠ "/") by discriminate.
  split; [exact Hne|].
  exact (proj1 (isCurrentPage_is_containment _ "/about.html" Hne)
           "/a/b" "?x" eq_refl).
Defined.

(** X16. A link to "/" is marked exactly on the page "/" and on pages whose
    path ends in /index.html, in whatever directory. *)
Theorem isCurrentPage_home_link (currentPath : string) :
  isCurrentPage currentPath "/"
  = String.eqb currentPath "/" || endsWith currentPath "/index.html".
Proof.
  unfold isCurrentPage.
  change (endsWith "/" "/index.html") with false.
  change (String.eqb "/" "/") with true.
  cbn [negb]. by rewrite !andb_false_r, !andb_true_r, !orb_false_r.
Qed.

(** ** Start and teardown *)





